(** * terraform-provider-profitbricks: provider.go

    A shallow embedding of [profitbricks/provider.go]: provider
    configuration ([providerConfigure], [cleanURL]), the request tracker
    ([getStateChangeConf], [resourceStateRefreshFunc]) and the package-level
    tables it reads ([resourcePendingStates], [resourceTargetStates],
    [resourceDefaultTimeouts]).

    The loop that waits on a request is the framework's; module [Wait]
    holds the Poller and the Wait Coordinator of the specification, over the
    same client.

    Go strings are byte strings: [string] of the standard library, one
    [ascii] per byte.  A Go [error] built by [fmt.Errorf] is represented by
    its message.  [time.Duration] is a number of nanoseconds. *)

From Stdlib Require Import String Ascii List ZArith Bool Arith Lia.
Import ListNotations.

Open Scope string_scope.
Open Scope nat_scope.

(* ================================================================= *)
(** * Go values used by the package *)

(** [error]: the message of an error value ([err.Error()]). *)
Definition error : Type := string.

(** [fmt.Errorf(format, arg)] for a format made of a fixed text followed by
    one [%s] verb: the text followed by the argument. *)
Definition Errorf (text : string) (arg : string) : error := text ++ arg.

Module Duration.
(** [time.Duration], in nanoseconds. *)
Definition t : Type := Z.
Definition Second : t := 1000000000%Z.
Definition Minute : t := (60 * Second)%Z.
End Duration.

(* ================================================================= *)
(** * The framework's resource data, as far as provider.go reads it *)

(** The operation kinds a timeout is configured for: the keys
    [schema.TimeoutCreate], [schema.TimeoutUpdate], [schema.TimeoutDelete]
    and [schema.TimeoutDefault] passed as [timeoutType]. *)
Inductive TimeoutType : Type :=
| TimeoutCreate
| TimeoutUpdate
| TimeoutDelete
| TimeoutDefault.

Definition timeoutKey (k : TimeoutType) : string :=
  match k with
  | TimeoutCreate => "create"
  | TimeoutUpdate => "update"
  | TimeoutDelete => "delete"
  | TimeoutDefault => "default"
  end.

Definition allTimeoutTypes : list TimeoutType :=
  [TimeoutCreate; TimeoutUpdate; TimeoutDelete; TimeoutDefault].

(** [schema.ResourceTimeout], with the four entries the package sets. *)
Record ResourceTimeout : Type := {
  Create  : Duration.t;
  Update  : Duration.t;
  Delete  : Duration.t;
  Default : Duration.t
}.

(** [*schema.ResourceData] as [providerConfigure] and [getStateChangeConf]
    see it: the results of [d.GetOk] on "username", "password" and "token"
    (value and ok flag; the flag of "token" is discarded by the code), of
    [d.Get] on "endpoint" and "retries", and the timeout table behind
    [d.Timeout]. *)
Record ResourceData : Type := {
  username   : string;
  usernameOk : bool;
  password   : string;
  passwordOk : bool;
  token      : string;
  endpoint   : string;
  retries    : Z;
  timeouts   : ResourceTimeout
}.

(** Modelled from the spec: the framework accessor [d.Timeout(timeoutType)],
    whose code is not part of this package: the operation kind selects the
    timeout of the wait policy. *)
Definition Timeout_of (d : ResourceData) (timeoutType : TimeoutType) : Duration.t :=
  match timeoutType with
  | TimeoutCreate => Create (timeouts d)
  | TimeoutUpdate => Update (timeouts d)
  | TimeoutDelete => Delete (timeouts d)
  | TimeoutDefault => Default (timeouts d)
  end.

(* ================================================================= *)
(** * cleanURL *)

(** [url[length-1] == '/'] *)
Definition byteIs (url : string) (i : nat) (c : ascii) : bool :=
  match String.get i url with
  | Some b => Ascii.eqb b c
  | None => false
  end.

(** [cleanURL] makes sure a trailing slash does not corrupt the state. *)
Definition cleanURL (url : string) : string :=
  let length := String.length url in
  if (1 <? length) && byteIs url (length - 1) "/"%char
  then String.substring 0 (length - 1) url
  else url.

(* ================================================================= *)
(** * providerConfigure *)

(** The [Config] literal built by [providerConfigure]. *)
Record Config : Type := {
  Username : string;
  Password : string;
  Endpoint : string;
  Retries  : Z;
  Token    : string
}.

(** What [providerConfigure] returns: one of its own errors, or the result
    of the tail call [config.Client()] on the config it built (the method
    is defined in another file of the package). *)
Inductive ConfigureResult : Type :=
| ConfigureError (err : error)
| ReturnClient (config : Config).

Definition errNoUsername : error :=
  "Neither ProfitBricks token, nor ProfitBricks username has been provided".
Definition errNoPassword : error :=
  "Neither ProfitBricks token, nor ProfitBricks password has been provided".
Definition errBothMethods : error :=
  "Only provide ProfitBricks token OR ProfitBricks username/password.".

Definition providerConfigure (d : ResourceData) : ConfigureResult :=
  let config := {|
    Username := username d;
    Password := password d;
    Endpoint := cleanURL (endpoint d);
    Retries  := retries d;
    Token    := token d
  |} in
  if String.eqb (token d) "" then
    if negb (usernameOk d) then ConfigureError errNoUsername
    else if negb (passwordOk d) then ConfigureError errNoPassword
    else ReturnClient config
  else
    if usernameOk d || passwordOk d then ConfigureError errBothMethods
    else ReturnClient config.

(** The configurations [providerConfigure] refuses: no token and the
    username or the password not set, or a token together with a username or
    a password. *)
Definition refused (d : ResourceData) : Prop :=
  (token d = "" /\ (usernameOk d = false \/ passwordOk d = false)) \/
  (token d <> "" /\ (usernameOk d = true \/ passwordOk d = true)).

(* ================================================================= *)
(** * The remote API client *)

(** [profitbricks.RequestStatus], reduced to what the tracker reads
    ([Metadata.Status], [Metadata.Message]) and a reference that tells two
    request objects apart. *)
Record RequestStatusMetadata : Type := {
  Status  : string;
  Message : string
}.

Record RequestStatus : Type := {
  Href     : string;
  Metadata : RequestStatusMetadata
}.

(** The two results of [client.GetRequestStatus(path)]: [(request, nil)] or
    [(_, err)]. *)
Inductive Response : Type :=
| Answer (request : RequestStatus)
| Failure (err : error).

(** [*profitbricks.Client] together with the remote API behind it: the
    answer the API gives to the n-th status query, and the paths queried so
    far (most recent first). *)
Record Client : Type := {
  remote  : nat -> Response;
  queried : list string
}.

(** The answer the remote API gives to the next status query. *)
Definition nextAnswer (client : Client) : Response :=
  remote client (List.length (queried client)).

(** The client after one status query on [path]. *)
Definition asked (client : Client) (path : string) : Client :=
  {| remote := remote client; queried := path :: queried client |}.

Definition GetRequestStatus (client : Client) (path : string) : Response * Client :=
  (nextAnswer client, asked client path).

(** A client that has not been queried yet, in front of a remote API that
    gives the listed answers in turn and [otherwise] from then on. *)
Definition scripted (answers : list Response) (otherwise : Response) : Client :=
  {| remote := fun n => List.nth n answers otherwise; queried := [] |}.

(** A request object in the given status. *)
Definition requestIn (href status message : string) : RequestStatus :=
  {| Href := href; Metadata := {| Status := status; Message := message |} |}.

(* ================================================================= *)
(** * resourceStateRefreshFunc *)

(** The triple returned by a [resource.StateRefreshFunc]:
    [(interface{}, string, error)], [None] standing for [nil]. *)
Record RefreshResult : Type := {
  result : option RequestStatus;
  state  : string;
  err    : option error
}.


Definition errEmptyPath : error := "Can not check a state when path is empty".
Definition requestFailed : string := "Request failed with following error: ".

(** [resourceStateRefreshFunc(meta, path)()] : one call of the closure,
    against the client [meta]. *)
Definition resourceStateRefreshFunc (meta : Client) (path : string)
  : RefreshResult * Client :=
  let client := meta in
  if String.eqb path "" then
    ({| result := None; state := ""; err := Some errEmptyPath |}, client)
  else
    match GetRequestStatus client path with
    | (Failure e, client') =>
        ({| result := None; state := "";
            err := Some (Errorf requestFailed e) |}, client')
    | (Answer request, client') =>
        if String.eqb (Status (Metadata request)) "FAILED" then
          ({| result := None; state := "";
              err := Some (Errorf requestFailed (Message (Metadata request))) |},
           client')
        else if String.eqb (Status (Metadata request)) "DONE" then
          ({| result := Some request; state := "DONE"; err := None |}, client')
        else
          ({| result := None; state := Status (Metadata request); err := None |},
           client')
    end.

(** [resourcePendingStates] defines states of working in progress. *)
Definition resourcePendingStates : list string := ["RUNNING"; "QUEUED"].

(** [resourceTargetStates] defines states of completion. *)
Definition resourceTargetStates : list string := ["DONE"].

(** [resourceDefaultTimeouts] sets the default value for each timeout type. *)
Definition resourceDefaultTimeouts : ResourceTimeout := {|
  Create  := (60 * Duration.Minute)%Z;
  Update  := (60 * Duration.Minute)%Z;
  Delete  := (60 * Duration.Minute)%Z;
  Default := (60 * Duration.Minute)%Z
|}.

(* ================================================================= *)
(** * getStateChangeConf *)

(** [resource.StateChangeConf], with the fields the package fills in.
    [Refresh] is the closure of [resourceStateRefreshFunc(meta, location)]:
    a function of the client behind [meta]. *)
Record StateChangeConf : Type := {
  Pending        : list string;
  Target         : list string;
  Refresh        : Client -> RefreshResult * Client;
  Timeout        : Duration.t;
  MinTimeout     : Duration.t;
  Delay          : Duration.t;
  NotFoundChecks : nat
}.

(** [getStateChangeConf] gets the default configuration for tracking a
    request's progress.  The closure stored in [Refresh] captures the
    location; the client it is run against is its argument. *)
Definition getStateChangeConf (d : ResourceData) (location : string)
    (timeoutType : TimeoutType) : StateChangeConf := {|
  Pending        := resourcePendingStates;
  Target         := resourceTargetStates;
  Refresh        := fun meta => resourceStateRefreshFunc meta location;
  Timeout        := Timeout_of d timeoutType;
  MinTimeout     := (10 * Duration.Second)%Z;
  Delay          := (10 * Duration.Second)%Z;
  NotFoundChecks := 600
|}.

(* ================================================================= *)
(** * The Poller and the Wait Coordinator

    The loop that drives the [StateChangeConf] built above belongs to the
    framework ([helper/resource]); its code is not part of this package.
    The definitions of this module give the tracker the vocabulary of the
    specification: a poll yields a [StatusSnapshot] or a classified error,
    and the coordinator is the state machine of the specification, run
    against the same [Client]. *)

Module Wait.

(** Modelled from the spec: the StatusSnapshot of one poll, which is
    missing from the package as a type (the code returns an unclassified
    triple): Pending carries the raw status as its label, Succeeded the
    final payload, Failed its message. *)
Inductive StatusSnapshot : Type :=
| Pending (label : string)
| Succeeded (payload : RequestStatus)
| Failed (message : string).

(** Modelled from the spec: the results of the Poller: a lookup error
    (empty handle), a transport error (the status query itself failed),
    or the classifier's snapshot. *)
Inductive PollResult : Type :=
| LookupError (e : error)
| TransportError (e : error)
| Snapshot (s : StatusSnapshot).

(** The Status Classifier: the three-way test of
    [resourceStateRefreshFunc] on [request.Metadata.Status], with the
    message the code builds for FAILED. *)
Definition classify (request : RequestStatus) : StatusSnapshot :=
  if String.eqb (Status (Metadata request)) "FAILED" then
    Failed (Errorf requestFailed (Message (Metadata request)))
  else if String.eqb (Status (Metadata request)) "DONE" then
    Succeeded request
  else
    Pending (Status (Metadata request)).

(** The Poller: the steps of [resourceStateRefreshFunc], keeping which of
    its return statements was taken. *)
Definition poll (handle : string) (client : Client) : PollResult * Client :=
  if String.eqb handle "" then (LookupError errEmptyPath, client)
  else
    match GetRequestStatus client handle with
    | (Failure e, client') => (TransportError (Errorf requestFailed e), client')
    | (Answer request, client') => (Snapshot (classify request), client')
    end.

(** The triple by which the code reports a poll result. *)
Definition encode (r : PollResult) : RefreshResult :=
  match r with
  | LookupError e => {| result := None; state := ""; err := Some e |}
  | TransportError e => {| result := None; state := ""; err := Some e |}
  | Snapshot (Failed m) => {| result := None; state := ""; err := Some m |}
  | Snapshot (Succeeded p) => {| result := Some p; state := "DONE"; err := None |}
  | Snapshot (Pending s) => {| result := None; state := s; err := None |}
  end.

(** Modelled from the spec: the WaitPolicy: total timeout, minimum poll
    interval, initial delay before the first poll, and the number of
    not-found polls tolerated. *)
Record WaitPolicy : Type := {
  timeout           : Duration.t;
  minPollInterval   : Duration.t;
  initialDelay      : Duration.t;
  notFoundTolerance : nat
}.

(** The policy carried by a [StateChangeConf]. *)
Definition policyOf (conf : StateChangeConf) : WaitPolicy := {|
  timeout           := Timeout conf;
  minPollInterval   := MinTimeout conf;
  initialDelay      := Delay conf;
  notFoundTolerance := NotFoundChecks conf
|}.

(** Modelled from the spec: the terminal states of the Wait Coordinator.
    [Aborted] carries the wrapped error it surfaces, when there is one. *)
Inductive Terminal : Type :=
| Completed (payload : RequestStatus)
| RemoteFailure (message : string)
| TimedOut (elapsed : Duration.t) (lastStatus : string)
| Aborted (cause : option error).

(** What a wait leaves behind: its terminal state, the number of polls it
    made, the time it spent waiting between them (a lower bound of the
    elapsed wall-clock time) and the client. *)
Record Outcome : Type := {
  final   : Terminal;
  polls   : nat;
  elapsed : Duration.t;
  client  : Client
}.

(** The outcome of a wait that ends with the poll after [n] earlier ones. *)
Definition stop (n : nat) (waited : Duration.t) (t : Terminal) (c' : Client)
  : Outcome :=
  {| final := t; polls := S n; elapsed := waited; client := c' |}.

(** Modelled from the spec: the state machine of the Wait Coordinator,
    whose loop is missing from the package.  On each tick: past the
    timeout the wait is TimedOut; otherwise the handle is polled.  A
    lookup error aborts; Succeeded and Failed are terminal; a transport
    error and a Pending snapshot (which carries no payload, and so is a
    not-found poll for the tolerance budget) each use one unit of the
    budget: while budget remains the next tick is scheduled
    [minPollInterval] later, once it is exhausted the wait is Aborted.
    [budget] is the number of units left before the poll. *)
Fixpoint waitLoop (policy : WaitPolicy) (handle : string) (budget : nat)
    (waited : Duration.t) (lastStatus : string) (n : nat) (c : Client)
    {struct budget} : Outcome :=
  if (timeout policy <? waited)%Z then
    {| final := TimedOut waited lastStatus;
       polls := n; elapsed := waited; client := c |}
  else
    match poll handle c with
    | (LookupError e, c') => stop n waited (Aborted (Some e)) c'
    | (Snapshot (Succeeded p), c') => stop n waited (Completed p) c'
    | (Snapshot (Failed m), c') => stop n waited (RemoteFailure m) c'
    | (TransportError e, c') =>
        match budget with
        | S (S _ as left) =>
            waitLoop policy handle left
              (waited + minPollInterval policy)%Z lastStatus (S n) c'
        | _ => stop n waited (Aborted (Some e)) c'
        end
    | (Snapshot (Pending s), c') =>
        match budget with
        | S (S _ as left) =>
            waitLoop policy handle left
              (waited + minPollInterval policy)%Z s (S n) c'
        | _ => stop n waited (Aborted None) c'
        end
    end.

(** Modelled from the spec: [waitForCompletion(handle, policy)]: the
    initial delay is observed before the first tick. *)
Definition waitForCompletion (handle : string) (policy : WaitPolicy)
    (c : Client) : Outcome :=
  waitLoop policy handle (notFoundTolerance policy) (initialDelay policy) "" 0 c.

End Wait.

(** A remote API on which the request never leaves the pending statuses:
    every status query is answered, with a status that is neither FAILED nor
    DONE. *)
Definition staysPending (c : Client) : Prop :=
  forall i, exists request,
    remote c i = Answer request /\
    Status (Metadata request) <> "FAILED" /\
    Status (Metadata request) <> "DONE".

(** Resource data that carries the given timeout table and no credentials. *)
Definition dataWith (t : ResourceTimeout) : ResourceData := {|
  username := ""; usernameOk := false;
  password := ""; passwordOk := false;
  token := ""; endpoint := ""; retries := 50;
  timeouts := t
|}.

(* ================================================================= *)
(** * Provider *)

Module schema.

(** [schema.ValueType], the two types the provider's fields have. *)
Inductive ValueType : Type :=
| TypeString
| TypeInt.

(** [schema.EnvDefaultFunc(k, dv)]: the environment variable read for the
    default, and the default used when it is not set ([nil] or a string). *)
Record EnvDefault : Type := {
  env : string;
  dv  : option string
}.

(** [schema.Schema], with the fields the provider's literals set; a field
    left out of a literal has its zero value. *)
Record Schema : Type := {
  Type_         : ValueType;
  Optional      : bool;
  Required      : bool;
  DefaultFunc   : option EnvDefault;
  Default       : option Z;
  Description   : string;
  ConflictsWith : list string;
  Deprecated    : string
}.

End schema.

(** A Go map literal with string keys, as the list of its entries. *)
Definition lookup {A : Type} (key : string) (m : list (string * A)) : option A :=
  match List.find (fun entry => String.eqb (fst entry) key) m with
  | Some entry => Some (snd entry)
  | None => None
  end.

Definition keys {A : Type} (m : list (string * A)) : list string :=
  List.map fst m.

(** The [schema.Provider] literal returned by [Provider]: its schema, the
    resources and data sources by name (each with the name of the function
    of the package that builds it) and its configure function. *)
Record ResourceProvider : Type := {
  Schema         : list (string * schema.Schema);
  ResourcesMap   : list (string * string);
  DataSourcesMap : list (string * string);
  ConfigureFunc  : ResourceData -> ConfigureResult
}.

(** [Provider] returns a [schema.Provider] for ProfitBricks. *)
Definition Provider : ResourceProvider := {|
  Schema := [
    ("username", {|
       schema.Type_         := schema.TypeString;
       schema.Optional      := true;
       schema.Required      := false;
       schema.DefaultFunc   :=
         Some {| schema.env := "PROFITBRICKS_USERNAME"; schema.dv := None |};
       schema.Default       := None;
       schema.Description   :=
         "ProfitBricks username for API operations. If token is provided, token is prefered";
       schema.ConflictsWith := ["token"];
       schema.Deprecated    := "" |});
    ("password", {|
       schema.Type_         := schema.TypeString;
       schema.Optional      := true;
       schema.Required      := false;
       schema.DefaultFunc   :=
         Some {| schema.env := "PROFITBRICKS_PASSWORD"; schema.dv := None |};
       schema.Default       := None;
       schema.Description   :=
         "ProfitBricks password for API operations. If token is provided, token is prefered";
       schema.ConflictsWith := ["token"];
       schema.Deprecated    := "" |});
    ("token", {|
       schema.Type_         := schema.TypeString;
       schema.Optional      := true;
       schema.Required      := false;
       schema.DefaultFunc   :=
         Some {| schema.env := "PROFITBRICKS_TOKEN"; schema.dv := Some "" |};
       schema.Default       := None;
       schema.Description   := "Profitbricks bearer token for API operations.";
       schema.ConflictsWith := ["username"; "password"];
       schema.Deprecated    := "" |});
    ("endpoint", {|
       schema.Type_         := schema.TypeString;
       schema.Optional      := true;
       schema.Required      := false;
       schema.DefaultFunc   :=
         Some {| schema.env := "PROFITBRICKS_API_URL"; schema.dv := Some "" |};
       schema.Default       := None;
       schema.Description   := "ProfitBricks REST API URL.";
       schema.ConflictsWith := [];
       schema.Deprecated    := "" |});
    ("retries", {|
       schema.Type_         := schema.TypeInt;
       schema.Optional      := true;
       schema.Required      := false;
       schema.DefaultFunc   := None;
       schema.Default       := Some 50%Z;
       schema.Description   := "";
       schema.ConflictsWith := [];
       schema.Deprecated    := "Timeout is used instead of this functionality" |})
  ];
  ResourcesMap := [
    ("profitbricks_datacenter",   "resourceProfitBricksDatacenter");
    ("profitbricks_ipblock",      "resourceProfitBricksIPBlock");
    ("profitbricks_firewall",     "resourceProfitBricksFirewall");
    ("profitbricks_lan",          "resourceProfitBricksLan");
    ("profitbricks_loadbalancer", "resourceProfitBricksLoadbalancer");
    ("profitbricks_nic",          "resourceProfitBricksNic");
    ("profitbricks_server",       "resourceProfitBricksServer");
    ("profitbricks_volume",       "resourceProfitBricksVolume");
    ("profitbricks_group",        "resourceProfitBricksGroup");
    ("profitbricks_share",        "resourceProfitBricksShare");
    ("profitbricks_user",         "resourceProfitBricksUser");
    ("profitbricks_snapshot",     "resourceProfitBricksSnapshot");
    ("profitbricks_ipfailover",   "resourceProfitBricksLanIPFailover")
  ];
  DataSourcesMap := [
    ("profitbricks_datacenter", "dataSourceDataCenter");
    ("profitbricks_location",   "dataSourceLocation");
    ("profitbricks_image",      "dataSourceImage");
    ("profitbricks_resource",   "dataSourceResource");
    ("profitbricks_snapshot",   "dataSourceSnapshot")
  ];
  ConfigureFunc := providerConfigure
|}.

(** Whether [providerConfigure] finds a credential field provided: the ok
    flag of [d.GetOk] for "username" and "password", a non-empty value for
    "token" (whose ok flag the code discards).  The other fields are not
    tested. *)
Definition provided (d : ResourceData) (key : string) : bool :=
  if String.eqb key "username" then usernameOk d
  else if String.eqb key "password" then passwordOk d
  else if String.eqb key "token" then negb (String.eqb (token d) "")
  else false.

(** Resource data with the endpoint [url], the other fields as in [d]. *)
Definition withEndpoint (d : ResourceData) (url : string) : ResourceData := {|
  username := username d; usernameOk := usernameOk d;
  password := password d; passwordOk := passwordOk d;
  token := token d; endpoint := url; retries := retries d;
  timeouts := timeouts d
|}.

(* ================================================================= *)
(** * Polling again and again *)

(** [n] calls in a row of the closure [resourceStateRefreshFunc(meta, path)]:
    the triples returned, in order, and the client afterwards. *)
Fixpoint refreshTimes (n : nat) (meta : Client) (path : string)
  : list RefreshResult * Client :=
  match n with
  | O => ([], meta)
  | S n' =>
      let (r, meta') := resourceStateRefreshFunc meta path in
      let (rs, meta'') := refreshTimes n' meta' path in
      (r :: rs, meta'')
  end.

(** [n] slashes. *)
Fixpoint slashes (n : nat) : string :=
  match n with
  | O => ""
  | S n' => slashes n' ++ "/"
  end.

(* ================================================================= *)
(** * Byte strings: the last byte *)

Section LastByte.

Variable c : ascii.

Lemma length_snoc (s : string) :
  String.length (s ++ String c "") = S (String.length s).
Proof. induction s as [|a s IH]; simpl; congruence. Qed.

Lemma get_snoc (s : string) :
  String.get (String.length s) (s ++ String c "") = Some c.
Proof. induction s as [|a s IH]; simpl; auto. Qed.

Lemma substring_snoc (s : string) :
  String.substring 0 (String.length s) (s ++ String c "") = s.
Proof. induction s as [|a s IH]; simpl; congruence. Qed.

Lemma snoc_inj (s t : string) (b : ascii) :
  s ++ String c "" = t ++ String b "" -> s = t /\ c = b.
Proof.
  revert t; induction s as [|a s IH]; intros [|a' t]; simpl; intros H.
  - inversion H; auto.
  - inversion H as [[Ha Ht]]. destruct t; discriminate.
  - inversion H as [[Ha Hs]]. destruct s; discriminate.
  - inversion H as [[Ha Hs]]. destruct (IH _ Hs). subst; auto.
Qed.

End LastByte.

Lemma snoc_cases (url : string) :
  url = "" \/ exists s c, url = s ++ String c "".
Proof.
  induction url as [|a url IH]; [now left | right].
  destruct IH as [-> | (s & c & ->)].
  - now exists "", a.
  - now exists (String a s), c.
Qed.

Lemma append_assoc (s t u : string) : (s ++ t) ++ u = s ++ (t ++ u).
Proof. induction s as [|a s IH]; simpl; congruence. Qed.

Lemma nonempty_length (s : string) : s <> "" <-> 0 < String.length s.
Proof.
  destruct s; simpl; split; intros H; try congruence; try lia.
Qed.

(** [cleanURL] on a string given by its last byte. *)
Lemma cleanURL_snoc (s : string) (c : ascii) :
  cleanURL (s ++ String c "") =
  if (0 <? String.length s) && Ascii.eqb c "/" then s else s ++ String c "".
Proof.
  unfold cleanURL, byteIs.
  rewrite length_snoc.
  replace (S (String.length s) - 1) with (String.length s) by lia.
  rewrite get_snoc, substring_snoc.
  change (1 <? S (String.length s)) with (0 <? String.length s).
  reflexivity.
Qed.

Lemma cleanURL_slash (s : string) : s <> "" -> cleanURL (s ++ "/") = s.
Proof.
  intros H. rewrite cleanURL_snoc.
  apply nonempty_length in H. apply Nat.ltb_lt in H. now rewrite H.
Qed.

Lemma cleanURL_short (url : string) : String.length url <= 1 -> cleanURL url = url.
Proof.
  intros H. unfold cleanURL.
  destruct (Nat.ltb_spec 1 (String.length url)); [lia | reflexivity].
Qed.

Lemma cleanURL_other (s : string) (c : ascii) :
  c <> "/"%char -> cleanURL (s ++ String c "") = s ++ String c "".
Proof.
  intros H. rewrite cleanURL_snoc.
  apply Ascii.eqb_neq in H. rewrite H. now rewrite andb_false_r.
Qed.

(* ================================================================= *)
(** * cleanURL: one trailing slash *)

(** A string that ends in a slash and is longer than one byte has a
    non-empty part before the slash. *)
Lemma slash_after_something (s : string) :
  1 < String.length (s ++ "/") <-> s <> "".
Proof.
  rewrite length_snoc, nonempty_length. lia.
Qed.

(** C10, as the claim states its last part: on the two-byte string of two
    slashes one call gives the single slash, which a second call leaves
    alone, so [cleanURL] is idempotent on this string ending in two
    slashes. *)
Lemma cleanURL_idempotent_on_two_slashes :
  (exists s, "//" = s ++ "//") /\
  cleanURL "//" = "/" /\
  cleanURL (cleanURL "//") = cleanURL "//".
Proof.
  split; [now exists "" | split; reflexivity].
Qed.

(** C10 (amended): [cleanURL url] is [url] without its last byte when [url]
    is longer than one byte and ends in a slash, and [url] itself otherwise;
    the one-byte string of a slash is returned unchanged; one call strips
    one slash only, so on every string of at least three bytes that ends in
    two slashes a second call changes the result of the first. *)
Theorem cleanURL_strips_one_trailing_slash :
  (forall url s, url = s ++ "/" -> 1 < String.length url -> cleanURL url = s) /\
  (forall url, ~ (1 < String.length url /\ exists s, url = s ++ "/") ->
               cleanURL url = url) /\
  cleanURL "/" = "/" /\
  (forall s, cleanURL (s ++ "//") = s ++ "/") /\
  (forall s, s <> "" ->
             cleanURL (cleanURL (s ++ "//")) = s /\
             cleanURL (cleanURL (s ++ "//")) <> cleanURL (s ++ "//")).
Proof.
  assert (two : forall s, cleanURL (s ++ "//") = s ++ "/").
  { intros s. change "//" with ("/" ++ "/"). rewrite <- append_assoc.
    apply cleanURL_slash. destruct s; discriminate. }
  repeat split.
  - intros url s -> H. apply cleanURL_slash. now apply slash_after_something.
  - intros url H.
    destruct (Nat.le_gt_cases (String.length url) 1) as [Hle | Hlt];
      [now apply cleanURL_short |].
    destruct (snoc_cases url) as [-> | (s & c & ->)]; [reflexivity |].
    apply cleanURL_other. intros ->. apply H. split; [assumption | now exists s].
  - exact two.
  - rewrite two. now apply cleanURL_slash.
  - rewrite !two, (cleanURL_slash s) by assumption.
    intros E. symmetry in E. revert E. clear. induction s as [|a s IH]; simpl.
    + discriminate.
    + intros E. inversion E. auto.
Qed.

(* ================================================================= *)
(** * providerConfigure: one authentication method *)

(** C9: [providerConfigure] returns an error of its own exactly for the
    refused configurations; for every other one it hands to [config.Client()]
    the config built from the fields provided (the endpoint through
    [cleanURL]). *)
Theorem providerConfigure_one_authentication_method (d : ResourceData) :
  ((exists e, providerConfigure d = ConfigureError e) <-> refused d) /\
  (refused d \/
   providerConfigure d =
   ReturnClient {| Username := username d;
                   Password := password d;
                   Endpoint := cleanURL (endpoint d);
                   Retries  := retries d;
                   Token    := token d |}).
Proof.
  unfold providerConfigure, refused.
  destruct (String.eqb_spec (token d) "") as [Ht | Ht];
    destruct (usernameOk d), (passwordOk d); simpl;
    (split; [split; [intros [e He]; try discriminate He | intros H; try (eexists; reflexivity)] | ]);
    try tauto; try (right; reflexivity); try (left; tauto).
  all: try (destruct H as [[? [? | ?]] | [? [? | ?]]]; congruence).
Qed.

(* ================================================================= *)
(** * resourceStateRefreshFunc: one poll *)

Section OnePoll.

Variables (meta : Client) (path : string).
Hypothesis path_given : path <> "".

Lemma refresh_unfold :
  resourceStateRefreshFunc meta path =
  match nextAnswer meta with
  | Failure e =>
      ({| result := None; state := "";
          err := Some (Errorf requestFailed e) |}, asked meta path)
  | Answer request =>
      if String.eqb (Status (Metadata request)) "FAILED" then
        ({| result := None; state := "";
            err := Some (Errorf requestFailed (Message (Metadata request))) |},
         asked meta path)
      else if String.eqb (Status (Metadata request)) "DONE" then
        ({| result := Some request; state := "DONE"; err := None |},
         asked meta path)
      else
        ({| result := None; state := Status (Metadata request); err := None |},
         asked meta path)
  end.
Proof.
  unfold resourceStateRefreshFunc, GetRequestStatus.
  apply String.eqb_neq in path_given. rewrite path_given.
  destruct (nextAnswer meta); reflexivity.
Qed.

Lemma refresh_transport (e : error) :
  nextAnswer meta = Failure e ->
  resourceStateRefreshFunc meta path =
  ({| result := None; state := ""; err := Some (Errorf requestFailed e) |},
   asked meta path).
Proof. intros H. now rewrite refresh_unfold, H. Qed.

Lemma refresh_failed (request : RequestStatus) :
  nextAnswer meta = Answer request ->
  Status (Metadata request) = "FAILED" ->
  resourceStateRefreshFunc meta path =
  ({| result := None; state := "";
      err := Some (Errorf requestFailed (Message (Metadata request))) |},
   asked meta path).
Proof. intros H E. now rewrite refresh_unfold, H, E. Qed.

Lemma refresh_done (request : RequestStatus) :
  nextAnswer meta = Answer request ->
  Status (Metadata request) = "DONE" ->
  resourceStateRefreshFunc meta path =
  ({| result := Some request; state := "DONE"; err := None |}, asked meta path).
Proof. intros H E. now rewrite refresh_unfold, H, E. Qed.

Lemma refresh_other (request : RequestStatus) :
  nextAnswer meta = Answer request ->
  Status (Metadata request) <> "FAILED" ->
  Status (Metadata request) <> "DONE" ->
  resourceStateRefreshFunc meta path =
  ({| result := None; state := Status (Metadata request); err := None |},
   asked meta path).
Proof.
  intros H F D. rewrite refresh_unfold, H.
  apply String.eqb_neq in F, D. now rewrite F, D.
Qed.

End OnePoll.

(** C1: on a successful poll whose raw status is neither FAILED nor DONE the
    refresh function returns no error, no payload, and the raw status itself
    as the current-state label, whatever that status is. *)
Theorem other_status_is_reported_as_pending
    (meta : Client) (path : string) (request : RequestStatus) :
  path <> "" ->
  nextAnswer meta = Answer request ->
  Status (Metadata request) <> "FAILED" ->
  Status (Metadata request) <> "DONE" ->
  resourceStateRefreshFunc meta path =
  ({| result := None; state := Status (Metadata request); err := None |},
   asked meta path).
Proof. intros; now apply refresh_other. Qed.

Lemma other_status_is_reported_as_pending_witness :
  resourceStateRefreshFunc
    (scripted [Answer (requestIn "requests/1" "PROVISIONING" "")] (Failure "eof"))
    "requests/1/status" =
  ({| result := None; state := "PROVISIONING"; err := None |},
   asked (scripted [Answer (requestIn "requests/1" "PROVISIONING" "")] (Failure "eof"))
         "requests/1/status").
Proof.
  apply (other_status_is_reported_as_pending
           (scripted [Answer (requestIn "requests/1" "PROVISIONING" "")] (Failure "eof"))
           "requests/1/status" (requestIn "requests/1" "PROVISIONING" ""));
    [discriminate | reflexivity | discriminate | discriminate].
Defined.

(** C3, as the claim states it: for the remote message "disk full" the
    message surfaced is not that message verbatim. *)
Lemma failed_message_is_not_verbatim :
  err (fst (resourceStateRefreshFunc
              (scripted [Answer (requestIn "requests/7" "FAILED" "disk full")]
                        (Failure "eof"))
              "requests/7/status")) =
  Some "Request failed with following error: disk full" /\
  String.eqb "Request failed with following error: disk full" "disk full" = false.
Proof. split; reflexivity. Qed.

(** C3 (amended): when a poll observes the raw status FAILED with remote
    message [msg], the refresh function returns an error, and with it no
    payload and no state label; the message of the error is the fixed text
    "Request failed with following error: " followed by [msg] verbatim, so
    it is never empty, and is that text alone when [msg] is empty. *)
Theorem failed_status_surfaces_wrapped_message
    (meta : Client) (path : string) (request : RequestStatus) :
  path <> "" ->
  nextAnswer meta = Answer request ->
  Status (Metadata request) = "FAILED" ->
  exists e,
    resourceStateRefreshFunc meta path =
      ({| result := None; state := ""; err := Some e |}, asked meta path) /\
    e = "Request failed with following error: " ++ Message (Metadata request) /\
    e <> "" /\
    (Message (Metadata request) = "" -> e = "Request failed with following error: ").
Proof.
  intros Hp Ha Hs.
  exists (Errorf requestFailed (Message (Metadata request))).
  split; [now apply refresh_failed | split; [reflexivity |]].
  split; [discriminate | intros ->; reflexivity].
Qed.

Lemma failed_status_surfaces_wrapped_message_witness :
  exists e,
    resourceStateRefreshFunc
      (scripted [Answer (requestIn "requests/7" "FAILED" "disk full")] (Failure "eof"))
      "requests/7/status" =
      ({| result := None; state := ""; err := Some e |},
       asked (scripted [Answer (requestIn "requests/7" "FAILED" "disk full")]
                       (Failure "eof")) "requests/7/status") /\
    e = "Request failed with following error: " ++ "disk full" /\
    e <> "" /\
    ("disk full" = "" -> e = "Request failed with following error: ").
Proof.
  apply (failed_status_surfaces_wrapped_message
           (scripted [Answer (requestIn "requests/7" "FAILED" "disk full")] (Failure "eof"))
           "requests/7/status" (requestIn "requests/7" "FAILED" "disk full"));
    [discriminate | reflexivity | reflexivity].
Defined.

(** C4: with an empty path the refresh function returns its empty-path
    error, with no payload and no state label, and leaves the client as it
    was: no status query is issued, however often the closure is called. *)
Theorem empty_path_fails_without_query (meta : Client) :
  resourceStateRefreshFunc meta "" =
    ({| result := None; state := "";
        err := Some "Can not check a state when path is empty" |}, meta) /\
  queried (snd (resourceStateRefreshFunc meta "")) = queried meta /\
  forall n, Nat.iter n (fun c => snd (resourceStateRefreshFunc c "")) meta = meta.
Proof.
  repeat split.
  induction n as [|n IH]; [reflexivity | now rewrite Nat.iter_succ, IH].
Qed.

(** C5: on a poll whose raw status is DONE, whatever the message, the
    refresh function returns the request object as payload, no error, and
    the label DONE, which is a target state of the wait. *)
Theorem done_status_returns_the_request
    (meta : Client) (path : string) (request : RequestStatus) :
  path <> "" ->
  nextAnswer meta = Answer request ->
  Status (Metadata request) = "DONE" ->
  resourceStateRefreshFunc meta path =
    ({| result := Some request; state := "DONE"; err := None |}, asked meta path) /\
  In (state (fst (resourceStateRefreshFunc meta path))) resourceTargetStates /\
  ~ In (state (fst (resourceStateRefreshFunc meta path))) resourcePendingStates.
Proof.
  intros Hp Ha Hs. rewrite (refresh_done meta path Hp request Ha Hs).
  split; [reflexivity | split; simpl; [now left |]].
  intros [H | [H | []]]; discriminate H.
Qed.

Lemma done_status_returns_the_request_witness :
  let meta :=
    scripted [Answer (requestIn "requests/3" "DONE" "anything")] (Failure "eof") in
  resourceStateRefreshFunc meta "requests/3/status" =
    ({| result := Some (requestIn "requests/3" "DONE" "anything");
        state := "DONE"; err := None |}, asked meta "requests/3/status") /\
  In (state (fst (resourceStateRefreshFunc meta "requests/3/status")))
     resourceTargetStates /\
  ~ In (state (fst (resourceStateRefreshFunc meta "requests/3/status")))
       resourcePendingStates.
Proof.
  apply (done_status_returns_the_request
           (scripted [Answer (requestIn "requests/3" "DONE" "anything")] (Failure "eof"))
           "requests/3/status" (requestIn "requests/3" "DONE" "anything"));
    [discriminate | reflexivity | reflexivity].
Defined.

(* ================================================================= *)
(** * getStateChangeConf: the default wait policy *)

(** C7: for every operation kind, resource data that carries the package's
    default timeouts gets a configuration with a 60-minute timeout, a
    10-second minimum poll interval, a 10-second delay before the first
    poll and 600 not-found checks, whatever the location. *)
Theorem default_wait_policy
    (d : ResourceData) (location : string) (timeoutType : TimeoutType) :
  timeouts d = resourceDefaultTimeouts ->
  let conf := getStateChangeConf d location timeoutType in
  Timeout conf = (60 * Duration.Minute)%Z /\
  Timeout conf = 3600000000000%Z /\
  MinTimeout conf = (10 * Duration.Second)%Z /\
  Delay conf = (10 * Duration.Second)%Z /\
  NotFoundChecks conf = 600 /\
  Pending conf = ["RUNNING"; "QUEUED"] /\
  Target conf = ["DONE"].
Proof.
  intros H conf. subst conf. unfold getStateChangeConf, Timeout_of; simpl.
  rewrite H. destruct timeoutType; repeat split; reflexivity.
Qed.

Lemma default_wait_policy_witness :
  let conf := getStateChangeConf (dataWith resourceDefaultTimeouts)
                                 "requests/1/status" TimeoutDelete in
  Timeout conf = (60 * Duration.Minute)%Z /\
  Timeout conf = 3600000000000%Z /\
  MinTimeout conf = (10 * Duration.Second)%Z /\
  Delay conf = (10 * Duration.Second)%Z /\
  NotFoundChecks conf = 600 /\
  Pending conf = ["RUNNING"; "QUEUED"] /\
  Target conf = ["DONE"].
Proof.
  apply (default_wait_policy (dataWith resourceDefaultTimeouts)
                             "requests/1/status" TimeoutDelete).
  reflexivity.
Defined.

(* ================================================================= *)
(** * The Poller against the refresh function *)

(** The refresh function reports the Poller's result through [Wait.encode],
    and queries the remote API exactly when the Poller does. *)
Lemma refresh_encodes_poll (meta : Client) (path : string) :
  resourceStateRefreshFunc meta path =
  (Wait.encode (fst (Wait.poll path meta)), snd (Wait.poll path meta)).
Proof.
  unfold resourceStateRefreshFunc, Wait.poll, Wait.classify, GetRequestStatus.
  destruct (String.eqb path ""); [reflexivity |].
  destruct (nextAnswer meta) as [request | e]; [| reflexivity].
  destruct (String.eqb (Status (Metadata request)) "FAILED"); [reflexivity |].
  destruct (String.eqb (Status (Metadata request)) "DONE"); reflexivity.
Qed.

(** X12: the triple of the refresh function does not tell a failed status query
    from a request the remote API reports as FAILED: with the same text
    behind them, both are the same error. *)
Lemma transport_error_reported_like_failed
    (meta meta' : Client) (path : string) (request : RequestStatus) :
  path <> "" ->
  nextAnswer meta = Failure (Message (Metadata request)) ->
  nextAnswer meta' = Answer request ->
  Status (Metadata request) = "FAILED" ->
  fst (resourceStateRefreshFunc meta path) = fst (resourceStateRefreshFunc meta' path).
Proof.
  intros Hp Hf Ha Hs.
  rewrite (refresh_transport meta path Hp _ Hf).
  now rewrite (refresh_failed meta' path Hp _ Ha Hs).
Qed.

Section Poll.

Variables (handle : string) (c : Client).
Hypothesis handle_given : handle <> "".

Lemma poll_unfold :
  Wait.poll handle c =
  match nextAnswer c with
  | Failure e => (Wait.TransportError (Errorf requestFailed e), asked c handle)
  | Answer request => (Wait.Snapshot (Wait.classify request), asked c handle)
  end.
Proof.
  unfold Wait.poll, GetRequestStatus.
  apply String.eqb_neq in handle_given. rewrite handle_given.
  destruct (nextAnswer c); reflexivity.
Qed.

Lemma poll_pending (request : RequestStatus) :
  nextAnswer c = Answer request ->
  Status (Metadata request) <> "FAILED" ->
  Status (Metadata request) <> "DONE" ->
  Wait.poll handle c =
  (Wait.Snapshot (Wait.Pending (Status (Metadata request))), asked c handle).
Proof.
  intros Ha F D. rewrite poll_unfold, Ha. unfold Wait.classify.
  apply String.eqb_neq in F, D. now rewrite F, D.
Qed.


End Poll.

(* ================================================================= *)
(** * The Wait Coordinator, tick by tick *)

Section Tick.

Variables (policy : Wait.WaitPolicy) (handle : string).
Variables (waited : Duration.t) (lastStatus : string) (n : nat) (c c' : Client).
Hypothesis in_time : (waited <= Wait.timeout policy)%Z.

Lemma tick_pending (s : string) (budget : nat) :
  Wait.poll handle c = (Wait.Snapshot (Wait.Pending s), c') ->
  Wait.waitLoop policy handle (S (S budget)) waited lastStatus n c =
  Wait.waitLoop policy handle (S budget)
    (waited + Wait.minPollInterval policy)%Z s (S n) c'.
Proof.
  intros Hp. apply Z.ltb_ge in in_time.
  cbn [Wait.waitLoop]. now rewrite in_time, Hp.
Qed.



Lemma tick_lookup_error (e : error) (budget : nat) :
  Wait.poll handle c = (Wait.LookupError e, c') ->
  Wait.waitLoop policy handle budget waited lastStatus n c =
  Wait.stop n waited (Wait.Aborted (Some e)) c'.
Proof.
  intros Hp. apply Z.ltb_ge in in_time.
  destruct budget; cbn [Wait.waitLoop]; now rewrite in_time, Hp.
Qed.

End Tick.

Lemma staysPending_asked (c : Client) (path : string) :
  staysPending c -> staysPending (asked c path).
Proof. intros H i. exact (H i). Qed.


(* ================================================================= *)
(** * The claims on the wait *)





(* ================================================================= *)
(** * Further facts on the wait *)

(** A wait on the empty handle ends at its first tick with the empty-path
    error and without a status query. *)
Lemma wait_on_empty_handle (policy : Wait.WaitPolicy) (c : Client) :
  (Wait.initialDelay policy <= Wait.timeout policy)%Z ->
  Wait.waitForCompletion "" policy c =
  {| Wait.final := Wait.Aborted (Some errEmptyPath);
     Wait.polls := 1;
     Wait.elapsed := Wait.initialDelay policy;
     Wait.client := c |}.
Proof.
  intros H. unfold Wait.waitForCompletion.
  now rewrite (tick_lookup_error policy "" _ "" 0 c c H errEmptyPath).
Qed.

(** Past the timeout a tick ends the wait without a poll. *)
Lemma tick_timed_out (policy : Wait.WaitPolicy) (handle : string) (budget : nat)
    (waited : Duration.t) (lastStatus : string) (n : nat) (c : Client) :
  (Wait.timeout policy < waited)%Z ->
  Wait.waitLoop policy handle budget waited lastStatus n c =
  {| Wait.final := Wait.TimedOut waited lastStatus;
     Wait.polls := n; Wait.elapsed := waited; Wait.client := c |}.
Proof.
  intros H. apply Z.ltb_lt in H.
  destruct budget; cbn [Wait.waitLoop]; now rewrite H.
Qed.

(** A request that stays pending is polled until the timeout has passed,
    when the tolerance budget is large enough for these polls. *)
Lemma pending_until_timeout (policy : Wait.WaitPolicy) (handle : string) :
  handle <> "" ->
  (0 <= Wait.minPollInterval policy)%Z ->
  forall (k budget : nat) (waited : Duration.t) (lastStatus : string) (n : nat)
         (c : Client),
    staysPending c ->
    k < budget ->
    (Wait.timeout policy < waited + Z.of_nat k * Wait.minPollInterval policy)%Z ->
    (k = 0 \/
     (waited + (Z.of_nat k - 1) * Wait.minPollInterval policy
      <= Wait.timeout policy)%Z) ->
    let o := Wait.waitLoop policy handle budget waited lastStatus n c in
    (exists s, Wait.final o =
               Wait.TimedOut (waited + Z.of_nat k * Wait.minPollInterval policy)%Z s) /\
    Wait.polls o = n + k.
Proof.
  intros Hh Hmin k.
  induction k as [|k IH]; intros budget waited lastStatus n c Hc Hb Hlate Hearly.
  - cbv zeta. rewrite tick_timed_out by lia.
    cbn [Wait.final Wait.polls]. split; [exists lastStatus; f_equal; lia | lia].
  - destruct Hearly as [Hk | Hearly]; [discriminate Hk |].
    destruct budget as [|[|budget]]; try lia.
    destruct (Hc (List.length (queried c))) as (request & Ha & F & D).
    assert (in_time : (waited <= Wait.timeout policy)%Z) by nia.
    cbv zeta.
    rewrite (tick_pending policy handle waited lastStatus n c
               (asked c handle) in_time (Status (Metadata request)) budget)
      by now apply poll_pending.
    destruct (IH (S budget) (waited + Wait.minPollInterval policy)%Z
                 (Status (Metadata request)) (S n) (asked c handle)
                 (staysPending_asked c handle Hc)) as ((s & E1) & E2);
      [lia | lia | destruct k; [now left | right; lia] |].
    rewrite E1, E2. split; [exists s; f_equal; lia | lia].
Qed.

(** With the default timeouts the timeout comes first: a request that stays
    pending is polled 360 times, and the wait times out with the 600
    not-found checks not used up. *)
Lemma default_timeout_precedes_not_found_checks
    (location : string) (timeoutType : TimeoutType) (meta : Client) :
  location <> "" ->
  staysPending meta ->
  let conf := getStateChangeConf (dataWith resourceDefaultTimeouts)
                                 location timeoutType in
  let o := Wait.waitForCompletion location (Wait.policyOf conf) meta in
  (exists s, Wait.final o = Wait.TimedOut (3610 * Duration.Second)%Z s) /\
  Wait.polls o = 360.
Proof.
  intros Hl Hp conf o.
  destruct (pending_until_timeout (Wait.policyOf conf) location Hl
              ltac:(now vm_compute) 360 600 (10 * Duration.Second)%Z "" 0 meta Hp)
    as ((s & E1) & E2).
  - lia.
  - subst conf. destruct timeoutType; now vm_compute.
  - right. subst conf. destruct timeoutType; vm_compute; discriminate.
  - split; [exists s; exact E1 | exact E2].
Qed.

(* ================================================================= *)
(** * cleanURL: further properties *)

Lemma append_empty_r (s : string) : s ++ "" = s.
Proof. induction s as [|a s IH]; simpl; congruence. Qed.

Lemma length_append (s t : string) :
  String.length (s ++ t) = String.length s + String.length t.
Proof. induction s as [|a s IH]; simpl; congruence. Qed.

Lemma append_slash_differs (s : string) : s ++ "/" <> s.
Proof.
  intros E. apply (f_equal String.length) in E.
  rewrite length_append in E. simpl in E. lia.
Qed.

(** A string is empty, ends in a slash, or ends in another byte. *)
Lemma last_byte_cases (url : string) :
  url = "" \/ (exists s, url = s ++ "/") \/
  (exists s c, url = s ++ String c "" /\ c <> "/"%char).
Proof.
  destruct (snoc_cases url) as [-> | (s & c & ->)]; [now left | right].
  destruct (Ascii.eqb_spec c "/") as [-> | Hc]; [left | right]; eauto.
Qed.

(** X1: [cleanURL] cuts at the end only, and at most one slash: the result is
    the URL itself or the URL without a final slash, so the URL is the
    result followed by nothing or by one slash, and the length drops by at
    most one. *)
Theorem cleanURL_cuts_at_most_one_slash (url : string) :
  (url = cleanURL url \/ url = cleanURL url ++ "/") /\
  String.length url - 1 <= String.length (cleanURL url) <= String.length url.
Proof.
  assert (H : url = cleanURL url \/ url = cleanURL url ++ "/").
  { destruct (last_byte_cases url) as [-> | [(s & ->) | (s & c & -> & Hc)]].
    - now left.
    - destruct s as [|a s]; [now left | right].
      now rewrite cleanURL_slash by discriminate.
    - left. now rewrite cleanURL_other. }
  split; [exact H |].
  remember (cleanURL url) as r eqn:Hr. clear Hr.
  destruct H as [-> | ->]; [lia |].
  rewrite length_append. simpl. lia.
Qed.

(** X2: [cleanURL] never empties a URL: the result is empty only for the empty
    URL. *)
Theorem cleanURL_empty_only_for_empty (url : string) :
  cleanURL url = "" <-> url = "".
Proof.
  split; [| now intros ->].
  intros E. destruct (cleanURL_cuts_at_most_one_slash url) as [[H | H] _];
    rewrite E in H; [exact H |].
  subst url. discriminate E.
Qed.

(** X3: the URLs [cleanURL] leaves alone are those of at most one byte and those
    that do not end in a slash; every other URL is changed. *)
Theorem cleanURL_fixed_points (url : string) :
  cleanURL url = url <->
  String.length url <= 1 \/ ~ (exists s, url = s ++ "/").
Proof.
  split.
  - intros E.
    destruct (Nat.le_gt_cases (String.length url) 1) as [Hle | Hgt]; [now left |].
    right. intros (s & ->).
    rewrite cleanURL_slash in E by now apply slash_after_something.
    now apply (append_slash_differs s).
  - intros [Hle | Hns]; [now apply cleanURL_short |].
    destruct (last_byte_cases url) as [-> | [Hs | (s & c & -> & Hc)]];
      [reflexivity | contradiction | now apply cleanURL_other].
Qed.

(** X4: the purpose of [cleanURL]: an endpoint written with one trailing slash
    and the same endpoint written without it are cleaned to the same
    string. *)
Theorem cleanURL_with_or_without_slash (base : string) :
  base <> "" ->
  ~ (exists s, base = s ++ "/") ->
  cleanURL (base ++ "/") = cleanURL base /\ cleanURL base = base.
Proof.
  intros Hb Hs.
  assert (E : cleanURL base = base) by (apply cleanURL_fixed_points; now right).
  rewrite E. split; [now apply cleanURL_slash | reflexivity].
Qed.

Lemma cleanURL_with_or_without_slash_witness :
  cleanURL ("https://api.profitbricks.com/cloudapi/v4" ++ "/") =
    cleanURL "https://api.profitbricks.com/cloudapi/v4" /\
  cleanURL "https://api.profitbricks.com/cloudapi/v4" =
    "https://api.profitbricks.com/cloudapi/v4".
Proof.
  apply (cleanURL_with_or_without_slash "https://api.profitbricks.com/cloudapi/v4").
  - discriminate.
  - intros (s & E).
    apply (f_equal (fun u => String.get (String.length u - 1) u)) in E.
    rewrite length_snoc in E.
    replace (S (String.length s) - 1) with (String.length s) in E by lia.
    rewrite get_snoc in E. discriminate E.
Defined.

Lemma slashes_snoc (s : string) (n : nat) :
  s ++ slashes (S n) = (s ++ slashes n) ++ "/".
Proof. simpl. now rewrite append_assoc. Qed.

Lemma append_nonempty_l (s t : string) : s <> "" -> s ++ t <> "".
Proof. destruct s; [congruence | discriminate]. Qed.

Lemma slashes_front (n : nat) : "/" ++ slashes n = slashes (S n).
Proof.
  induction n as [|n IH]; [reflexivity |].
  change (slashes (S (S n))) with (slashes (S n) ++ "/").
  change ("/" ++ slashes (S n)) with ("/" ++ (slashes n ++ "/")).
  now rewrite <- append_assoc, IH.
Qed.

(** X5: calling [cleanURL] once per trailing slash removes them all: [n] calls
    take [n] slashes off a non-empty string; of a URL made of slashes only,
    the last slash stays. *)
Theorem cleanURL_repeated (n : nat) :
  (forall base, base <> "" ->
                Nat.iter n cleanURL (base ++ slashes n) = base) /\
  Nat.iter n cleanURL (slashes (S n)) = "/".
Proof.
  assert (H : forall base, base <> "" ->
                           Nat.iter n cleanURL (base ++ slashes n) = base).
  { induction n as [|n IH]; intros base Hb.
    - simpl. apply append_empty_r.
    - rewrite Nat.iter_succ_r, slashes_snoc, cleanURL_slash
        by now apply append_nonempty_l.
      now apply IH. }
  split; [exact H |].
  rewrite <- slashes_front. apply (H "/"). discriminate.
Qed.

(* ================================================================= *)
(** * providerConfigure: which error, and the endpoint *)

Lemma errors_distinct :
  errNoUsername <> errNoPassword /\
  errNoUsername <> errBothMethods /\
  errNoPassword <> errBothMethods.
Proof. repeat split; apply String.eqb_neq; reflexivity. Qed.

(** X6: which of its three errors [providerConfigure] returns: without a token,
    the missing username is reported first, also when the password is
    missing too, and the missing password only when the username is there;
    with a token, the third error as soon as a username or a password comes
    with it.  It returns no other error. *)
Theorem providerConfigure_error_choice (d : ResourceData) :
  (providerConfigure d = ConfigureError errNoUsername <->
   token d = "" /\ usernameOk d = false) /\
  (providerConfigure d = ConfigureError errNoPassword <->
   token d = "" /\ usernameOk d = true /\ passwordOk d = false) /\
  (providerConfigure d = ConfigureError errBothMethods <->
   token d <> "" /\ (usernameOk d = true \/ passwordOk d = true)) /\
  (forall e, providerConfigure d = ConfigureError e ->
             e = errNoUsername \/ e = errNoPassword \/ e = errBothMethods).
Proof.
  destruct errors_distinct as (D1 & D2 & D3).
  unfold providerConfigure.
  destruct (String.eqb_spec (token d) "") as [Ht | Ht];
    destruct (usernameOk d), (passwordOk d); simpl;
    repeat split; intros; repeat
      match goal with
      | H : _ /\ _ |- _ => destruct H
      | H : _ \/ _ |- _ => destruct H
      | H : ConfigureError _ = ConfigureError _ |- _ => injection H as H
      end;
    try discriminate; try congruence; auto.
Qed.

(** X7: the error decision does not look at the endpoint, and the endpoint
    reaches the client config through [cleanURL]: two configurations that
    differ only in one trailing slash of the endpoint give the same
    result. *)
Theorem providerConfigure_ignores_one_trailing_slash
    (d : ResourceData) (base : string) :
  base <> "" ->
  ~ (exists s, base = s ++ "/") ->
  providerConfigure (withEndpoint d (base ++ "/")) =
  providerConfigure (withEndpoint d base).
Proof.
  intros Hb Hs. unfold providerConfigure, withEndpoint; simpl.
  destruct (cleanURL_with_or_without_slash base Hb Hs) as [-> _].
  reflexivity.
Qed.

Lemma providerConfigure_ignores_one_trailing_slash_witness :
  providerConfigure
    (withEndpoint (dataWith resourceDefaultTimeouts) ("https://api.test" ++ "/")) =
  providerConfigure
    (withEndpoint (dataWith resourceDefaultTimeouts) "https://api.test").
Proof.
  apply (providerConfigure_ignores_one_trailing_slash
           (dataWith resourceDefaultTimeouts) "https://api.test").
  - discriminate.
  - intros (s & E).
    apply (f_equal (fun u => String.get (String.length u - 1) u)) in E.
    rewrite length_snoc in E.
    replace (S (String.length s) - 1) with (String.length s) in E by lia.
    rewrite get_snoc in E. discriminate E.
Defined.

(* ================================================================= *)
(** * Provider: the schema *)

(** The fields of the provider's schema. *)
Lemma schema_fields (key : string) (s : schema.Schema) :
  lookup key (Schema Provider) = Some s ->
  (key = "username" /\ schema.ConflictsWith s = ["token"]) \/
  (key = "password" /\ schema.ConflictsWith s = ["token"]) \/
  (key = "token" /\ schema.ConflictsWith s = ["username"; "password"]) \/
  (key = "endpoint" /\ schema.ConflictsWith s = []) \/
  (key = "retries" /\ schema.ConflictsWith s = []).
Proof.
  unfold lookup, Provider; cbn [Schema List.find fst snd].
  repeat match goal with
         | |- context [String.eqb ?k key] =>
             destruct (String.eqb_spec k key) as [<- | ?]
         end;
    intros H; try discriminate H; injection H as <-; cbn; tauto.
Qed.

(** X8: the conflicts declared in the schema are mutual and stay within the
    schema: a field named in the [ConflictsWith] of another is a different
    field of the schema, and names that other field in its own
    [ConflictsWith]. *)
Theorem schema_conflicts_are_mutual (key other : string) (s : schema.Schema) :
  lookup key (Schema Provider) = Some s ->
  In other (schema.ConflictsWith s) ->
  other <> key /\
  exists s', lookup other (Schema Provider) = Some s' /\
             In key (schema.ConflictsWith s').
Proof.
  intros Hk Ho.
  destruct (schema_fields key s Hk)
    as [[-> E] | [[-> E] | [[-> E] | [[-> E] | [-> E]]]]];
    rewrite E in Ho; cbn in Ho;
    repeat match goal with
           | H : _ \/ _ |- _ => destruct H as [<- | H]
           | H : False |- _ => destruct H
           end;
    (split; [discriminate | eexists; split; [reflexivity | cbn; tauto]]).
Qed.

Lemma schema_conflicts_are_mutual_witness :
  "token" <> "password" /\
  exists s', lookup "token" (Schema Provider) = Some s' /\
             In "password" (schema.ConflictsWith s').
Proof.
  apply (schema_conflicts_are_mutual "password" "token"
           {| schema.Type_         := schema.TypeString;
              schema.Optional      := true;
              schema.Required      := false;
              schema.DefaultFunc   :=
                Some {| schema.env := "PROFITBRICKS_PASSWORD"; schema.dv := None |};
              schema.Default       := None;
              schema.Description   :=
                "ProfitBricks password for API operations. If token is provided, token is prefered";
              schema.ConflictsWith := ["token"];
              schema.Deprecated    := "" |}).
  - reflexivity.
  - simpl. now left.
Defined.

(** X9: the check of [providerConfigure] for two authentication methods is the
    schema's [ConflictsWith] at run time: the error for both methods is
    returned exactly when two fields that the schema declares in conflict
    are both provided. *)
Theorem both_methods_error_mirrors_schema_conflicts (d : ResourceData) :
  ConfigureFunc Provider d = ConfigureError errBothMethods <->
  exists key other s,
    lookup key (Schema Provider) = Some s /\
    In other (schema.ConflictsWith s) /\
    provided d key = true /\
    provided d other = true.
Proof.
  cbn [ConfigureFunc Provider].
  destruct (providerConfigure_error_choice d) as (_ & _ & -> & _).
  split.
  - intros [Ht Hc]. apply String.eqb_neq in Ht.
    destruct Hc as [Hu | Hp].
    + exists "token", "username". eexists. split; [reflexivity |].
      unfold provided; cbn. rewrite Ht, Hu. tauto.
    + exists "token", "password". eexists. split; [reflexivity |].
      unfold provided; cbn. rewrite Ht, Hp. tauto.
  - intros (key & other & s & Hk & Ho & Pk & Po).
    destruct (schema_fields key s Hk)
      as [[-> E] | [[-> E] | [[-> E] | [[-> E] | [-> E]]]]];
      rewrite E in Ho; cbn in Ho;
      repeat match goal with
             | H : _ \/ _ |- _ => destruct H as [<- | H]
             | H : False |- _ => destruct H
             end;
      unfold provided in Pk, Po; cbn in Pk, Po;
      apply negb_true_iff, String.eqb_neq in Pk || apply negb_true_iff, String.eqb_neq in Po;
      tauto.
Qed.

(* ================================================================= *)
(** * resourceStateRefreshFunc: the shape of every result *)

(** X10: whatever the path and the answer of the remote API, the triple returned
    is of one of three shapes: an error comes with no payload and an empty
    state label; a payload comes with no error and exactly with the label
    DONE; and the label FAILED is never returned. *)
Theorem refresh_result_shape (meta : Client) (path : string) :
  let r := fst (resourceStateRefreshFunc meta path) in
  (err r <> None -> result r = None /\ state r = "") /\
  (result r <> None <-> state r = "DONE") /\
  (result r <> None -> err r = None) /\
  state r <> "FAILED".
Proof.
  cbv zeta. destruct (String.eqb_spec path "") as [-> | Hp].
  - cbn. intuition congruence.
  - rewrite (refresh_unfold meta path Hp).
    destruct (nextAnswer meta) as [request | e]; [| cbn; intuition congruence].
    destruct (String.eqb_spec (Status (Metadata request)) "FAILED") as [F | F];
      [cbn; intuition congruence |].
    destruct (String.eqb_spec (Status (Metadata request)) "DONE") as [D | D];
      cbn; intuition congruence.
Qed.

(** X11: every error the refresh function returns is the empty-path error, for
    the empty path, or the fixed text "Request failed with following
    error: " followed by the text of the failed query or by the message of
    the FAILED request; the two can be told apart, as the empty-path error
    does not start with that text, and no error message is empty. *)
Theorem refresh_error_messages (meta : Client) (path : string) (e : error) :
  err (fst (resourceStateRefreshFunc meta path)) = Some e ->
  ((path = "" /\ e = errEmptyPath) \/
   (path <> "" /\
    exists detail,
      e = requestFailed ++ detail /\
      (nextAnswer meta = Failure detail \/
       exists request,
         nextAnswer meta = Answer request /\
         Status (Metadata request) = "FAILED" /\
         Message (Metadata request) = detail))) /\
  e <> "" /\
  String.prefix requestFailed errEmptyPath = false.
Proof.
  intros H.
  assert (G : (path = "" /\ e = errEmptyPath) \/
              (path <> "" /\
               exists detail,
                 e = requestFailed ++ detail /\
                 (nextAnswer meta = Failure detail \/
                  exists request,
                    nextAnswer meta = Answer request /\
                    Status (Metadata request) = "FAILED" /\
                    Message (Metadata request) = detail))).
  { destruct (String.eqb_spec path "") as [-> | Hp].
    - left. cbn in H. injection H as <-. now split.
    - right. split; [assumption |].
      rewrite (refresh_unfold meta path Hp) in H.
      destruct (nextAnswer meta) as [request | e'].
      + destruct (String.eqb_spec (Status (Metadata request)) "FAILED") as [F | F].
        * cbn in H. injection H as <-.
          exists (Message (Metadata request)). split; [reflexivity | right].
          now exists request.
        * destruct (String.eqb (Status (Metadata request)) "DONE");
            cbn in H; discriminate H.
      + cbn in H. injection H as <-. exists e'. split; [reflexivity | now left]. }
  split; [exact G | split; [| reflexivity]].
  destruct G as [[_ ->] | [_ (detail & -> & _)]]; discriminate.
Qed.

Lemma refresh_error_messages_witness :
  (("requests/2/status" = "" /\
    "Request failed with following error: connection reset" = errEmptyPath) \/
   ("requests/2/status" <> "" /\
    exists detail,
      "Request failed with following error: connection reset"
        = requestFailed ++ detail /\
      (nextAnswer (scripted [] (Failure "connection reset")) = Failure detail \/
       exists request,
         nextAnswer (scripted [] (Failure "connection reset")) = Answer request /\
         Status (Metadata request) = "FAILED" /\
         Message (Metadata request) = detail))) /\
  "Request failed with following error: connection reset" <> "" /\
  String.prefix requestFailed errEmptyPath = false.
Proof.
  apply (refresh_error_messages (scripted [] (Failure "connection reset"))
                                "requests/2/status").
  reflexivity.
Defined.

Lemma transport_error_reported_like_failed_witness :
  fst (resourceStateRefreshFunc (scripted [] (Failure "quota exceeded"))
                                "requests/4/status") =
  fst (resourceStateRefreshFunc
         (scripted [Answer (requestIn "requests/4" "FAILED" "quota exceeded")]
                   (Failure "eof"))
         "requests/4/status").
Proof.
  apply (transport_error_reported_like_failed
           (scripted [] (Failure "quota exceeded"))
           (scripted [Answer (requestIn "requests/4" "FAILED" "quota exceeded")]
                     (Failure "eof"))
           "requests/4/status"
           (requestIn "requests/4" "FAILED" "quota exceeded"));
    [discriminate | reflexivity | reflexivity | reflexivity].
Defined.

(* ================================================================= *)
(** * Polling again and again *)

Lemma repeat_shift {A : Type} (x : A) (n : nat) (l : list A) :
  (repeat x n ++ x :: l = x :: repeat x n ++ l)%list.
Proof. induction n as [|n IH]; simpl; [reflexivity | now rewrite IH]. Qed.

(** X13: the refresh function neither caches nor skips: [n] calls on a non-empty
    path make [n] status queries on that path and return [n] triples, the
    i-th of which is what one call returns when it is the i-th query the
    remote API receives. *)
Theorem refresh_repeated_queries_each_time
    (n : nat) (meta : Client) (path : string) :
  path <> "" ->
  queried (snd (refreshTimes n meta path)) = (repeat path n ++ queried meta)%list /\
  remote (snd (refreshTimes n meta path)) = remote meta /\
  List.length (fst (refreshTimes n meta path)) = n /\
  forall i, i < n ->
    nth_error (fst (refreshTimes n meta path)) i =
    Some (fst (resourceStateRefreshFunc
                 {| remote := remote meta;
                    queried := (repeat path i ++ queried meta)%list |} path)).
Proof.
  intros Hp. revert meta.
  induction n as [|n IH]; intros meta.
  - cbn. repeat split. intros i Hi. lia.
  - cbn [refreshTimes].
    assert (E : snd (resourceStateRefreshFunc meta path) = asked meta path).
    { rewrite (refresh_unfold meta path Hp).
      destruct (nextAnswer meta) as [request | e]; [| reflexivity].
      destruct (String.eqb (Status (Metadata request)) "FAILED"); [reflexivity |].
      destruct (String.eqb (Status (Metadata request)) "DONE"); reflexivity. }
    destruct (resourceStateRefreshFunc meta path) as [r meta'] eqn:R.
    cbn [snd] in E. subst meta'.
    destruct (IH (asked meta path)) as (Q & M & L & N).
    destruct (refreshTimes n (asked meta path) path) as [rs meta''].
    cbn [fst snd] in *. repeat split.
    + rewrite Q. cbn [asked queried]. apply repeat_shift.
    + rewrite M. reflexivity.
    + cbn. now rewrite L.
    + intros [|i] Hi.
      * cbn. destruct meta as [rem q]. cbn. now rewrite R.
      * cbn [nth_error]. rewrite (N i) by lia.
        cbn [asked remote queried]. now rewrite repeat_shift.
Qed.

Lemma refresh_repeated_queries_each_time_witness :
  let meta := scripted [Answer (requestIn "requests/6" "QUEUED" "")]
                       (Answer (requestIn "requests/6" "RUNNING" "")) in
  queried (snd (refreshTimes 3 meta "requests/6/status")) =
    (repeat "requests/6/status" 3 ++ queried meta)%list /\
  remote (snd (refreshTimes 3 meta "requests/6/status")) = remote meta /\
  List.length (fst (refreshTimes 3 meta "requests/6/status")) = 3 /\
  forall i, i < 3 ->
    nth_error (fst (refreshTimes 3 meta "requests/6/status")) i =
    Some (fst (resourceStateRefreshFunc
                 {| remote := remote meta;
                    queried := (repeat "requests/6/status" i ++ queried meta)%list |}
                 "requests/6/status")).
Proof.
  apply (refresh_repeated_queries_each_time 3
           (scripted [Answer (requestIn "requests/6" "QUEUED" "")]
                     (Answer (requestIn "requests/6" "RUNNING" "")))
           "requests/6/status").
  discriminate.
Defined.

(* ================================================================= *)
(** * getStateChangeConf: the state tables against the refresh function *)

(** X14: the tables of the configuration agree with its refresh function: a
    request whose status is one of the target states is returned as payload
    under that label, one whose status is one of the pending states is
    reported under that label without payload, neither with an error; no
    state is in both tables, and FAILED is in neither. *)
Theorem state_tables_agree_with_refresh
    (d : ResourceData) (location : string) (timeoutType : TimeoutType)
    (meta : Client) (request : RequestStatus) :
  location <> "" ->
  nextAnswer meta = Answer request ->
  let conf := getStateChangeConf d location timeoutType in
  (In (Status (Metadata request)) (Target conf) ->
   fst (Refresh conf meta) =
   {| result := Some request; state := Status (Metadata request); err := None |}) /\
  (In (Status (Metadata request)) (Pending conf) ->
   fst (Refresh conf meta) =
   {| result := None; state := Status (Metadata request); err := None |}) /\
  (forall s, In s (Pending conf) -> ~ In s (Target conf)) /\
  ~ In "FAILED" (Pending conf) /\
  ~ In "FAILED" (Target conf).
Proof.
  intros Hl Ha conf. subst conf. cbn [Target Pending Refresh getStateChangeConf].
  unfold resourceTargetStates, resourcePendingStates. cbn [In].
  repeat split.
  - intros [E | []]. rewrite <- E.
    now rewrite (refresh_done meta location Hl request Ha (eq_sym E)).
  - intros [E | [E | []]];
      rewrite (refresh_other meta location Hl request Ha);
      try reflexivity; rewrite <- E; discriminate.
  - intros s [<- | [<- | []]] [E | []]; discriminate E.
  - intros [E | [E | []]]; discriminate E.
  - intros [E | []]; discriminate E.
Qed.

Lemma state_tables_agree_with_refresh_witness :
  let meta := scripted [Answer (requestIn "requests/8" "QUEUED" "")] (Failure "eof") in
  let request := requestIn "requests/8" "QUEUED" "" in
  let conf := getStateChangeConf (dataWith resourceDefaultTimeouts)
                                 "requests/8/status" TimeoutCreate in
  (In (Status (Metadata request)) (Target conf) ->
   fst (Refresh conf meta) =
   {| result := Some request; state := Status (Metadata request); err := None |}) /\
  (In (Status (Metadata request)) (Pending conf) ->
   fst (Refresh conf meta) =
   {| result := None; state := Status (Metadata request); err := None |}) /\
  (forall s, In s (Pending conf) -> ~ In s (Target conf)) /\
  ~ In "FAILED" (Pending conf) /\
  ~ In "FAILED" (Target conf).
Proof.
  apply (state_tables_agree_with_refresh
           (dataWith resourceDefaultTimeouts) "requests/8/status" TimeoutCreate
           (scripted [Answer (requestIn "requests/8" "QUEUED" "")] (Failure "eof"))
           (requestIn "requests/8" "QUEUED" ""));
    [discriminate | reflexivity].
Defined.

(* ================================================================= *)
(** * Provider: the names *)

Ltac distinct_names :=
  repeat (apply NoDup_cons; [cbn; intuition discriminate |]); apply NoDup_nil.

(** X15: no name is declared twice in the provider: the fields of the schema,
    the resources and the data sources each have distinct names, every
    resource and data source name starts with "profitbricks_", and no
    function of the package is registered under two names. *)
Theorem provider_names_are_distinct :
  NoDup (keys (Schema Provider)) /\
  NoDup (keys (ResourcesMap Provider)) /\
  NoDup (keys (DataSourcesMap Provider)) /\
  Forall (fun name => String.prefix "profitbricks_" name = true)
         (keys (ResourcesMap Provider) ++ keys (DataSourcesMap Provider))%list /\
  NoDup (List.map snd (ResourcesMap Provider) ++
         List.map snd (DataSourcesMap Provider))%list.
Proof.
  cbn [keys Schema ResourcesMap DataSourcesMap Provider List.map fst snd List.app].
  split; [distinct_names |].
  split; [distinct_names |].
  split; [distinct_names |].
  split; [repeat constructor | distinct_names].
Qed.

(** X16: the schema asks for nothing: every field is optional and none is
    required, so the credentials are checked by [providerConfigure] alone,
    which refuses a configuration where none of them is provided. *)
Theorem credentials_are_checked_by_configure_only :
  (forall key s, lookup key (Schema Provider) = Some s ->
                 schema.Optional s = true /\ schema.Required s = false) /\
  (forall d, provided d "username" = false ->
             provided d "password" = false ->
             provided d "token" = false ->
             ConfigureFunc Provider d = ConfigureError errNoUsername).
Proof.
  split.
  - intros key s. unfold lookup, Provider; cbn [Schema List.find fst snd].
    repeat match goal with
           | |- context [String.eqb ?k key] =>
               destruct (String.eqb_spec k key) as [<- | ?]
           end;
      intros H; try discriminate H; injection H as <-; now cbn.
  - intros d Hu Hp Ht. unfold provided in *; cbn in Hu, Hp, Ht.
    apply negb_false_iff, String.eqb_eq in Ht.
    cbn [ConfigureFunc Provider].
    now apply (providerConfigure_error_choice d).
Qed.
